(** * GitLab Tag Deployment Tracker (src/main.py), shallow embedding

    Python [str] values are modelled as [String.string] (ASCII characters);
    [str.lower], [in], [','.join], [str.split(',')] and the regular
    expression of [is_valid_tag_format] are written out below.  The GitLab
    API is an explicit record of responses; a Python exception raised by a
    call is the [Exc] case of [res].  Standard output is a list of printed
    lines, threaded by a writer monad that can also stop with [sys.exit].

    Assumed: the module loads, i.e. the annotation [gitlab.v4.objects.Project]
    of the function signatures is not evaluated at definition time (Python
    3.14 semantics); on earlier Pythons evaluating it may fail at import,
    before [main] runs.  Exceptions the code does not catch (a missing key
    in a response dict) are outside the model. *)

From Stdlib Require Import List String Ascii Bool Arith Lia ZArith.
From Stdlib Require Import DecimalString.
Import ListNotations.
Open Scope string_scope.

(** ** Python string helpers *)
Module Py.

(** [str.lower] on ASCII characters. *)
Definition lower_char (c : ascii) : ascii :=
  let n := nat_of_ascii c in
  if (65 <=? n)%nat && (n <=? 90)%nat then ascii_of_nat (n + 32) else c.

Fixpoint lower (s : string) : string :=
  match s with
  | EmptyString => EmptyString
  | String c s' => String (lower_char c) (lower s')
  end.

(** [sub in s] for strings. *)
Fixpoint contains (sub s : string) : bool :=
  match s with
  | EmptyString => prefix sub s
  | String _ s' => prefix sub s || contains sub s'
  end.

(** [sep.join(parts)]. *)
Definition join (sep : string) (parts : list string) : string :=
  String.concat sep parts.

(** [s.split(sep)] for a one-character separator. *)
Fixpoint split (sep : ascii) (s : string) : list string :=
  match s with
  | EmptyString => [""]
  | String c s' =>
      let r := split sep s' in
      if Ascii.eqb c sep then "" :: r
      else match r with
           | [] => [String c ""]
           | h :: t => String c h :: t
           end
  end.

(** [str(n)] for an integer. *)
Definition Z_to_str (z : Z) : string := NilEmpty.string_of_int (Z.to_int z).

Definition newline : string := String (ascii_of_nat 10) EmptyString.

End Py.

(** ** [re.match(r'^v\d+\.\d+\.\d+$', tag)]

    The pattern, as Python's [re] reads it without flags: [^] holds only at
    position 0, [\d] is a digit (within ASCII, [0-9]), [+] is greedy with
    backtracking, [$] holds at the end of the string or just before a
    newline that ends the string.  [re.match] succeeds as soon as the whole
    pattern has been matched against a prefix of the input. *)
Module Re.

Inductive item :=
| Bol                 (* ^ *)
| Lit (c : ascii)     (* a literal character, [v] or [\.] *)
| PlusDigit           (* \d+ *)
| Eol.                (* $ *)

Definition is_digit (c : ascii) : bool :=
  let n := nat_of_ascii c in (48 <=? n)%nat && (n <=? 57)%nat.

Fixpoint digit_run (s : string) : nat :=
  match s with
  | String c s' => if is_digit c then S (digit_run s') else O
  | EmptyString => O
  end.

Fixpoint drop (k : nat) (s : string) : string :=
  match k, s with
  | O, _ => s
  | S k', String _ s' => drop k' s'
  | S _, EmptyString => EmptyString
  end.

Definition at_eol (s : string) : bool :=
  match s with
  | EmptyString => true
  | _ => String.eqb s Py.newline
  end.

(** Backtracking matcher; [at_start] says the position is 0. *)
Fixpoint match_at (ps : list item) (s : string) (at_start : bool) : bool :=
  match ps with
  | [] => true
  | Bol :: ps' => at_start && match_at ps' s at_start
  | Lit c :: ps' =>
      match s with
      | String c' s' => Ascii.eqb c c' && match_at ps' s' false
      | EmptyString => false
      end
  | PlusDigit :: ps' =>
      (* greedy: longest digit run first, then shorter ones *)
      existsb (fun k => match_at ps' (drop k s) false)
              (rev (seq 1 (digit_run s)))
  | Eol :: ps' => at_eol s && match_at ps' s at_start
  end.

Definition re_match (ps : list item) (s : string) : bool := match_at ps s true.

(** [r'^v\d+\.\d+\.\d+$'] *)
Definition tag_pattern : list item :=
  [Bol; Lit "v"; PlusDigit; Lit "."; PlusDigit; Lit "."; PlusDigit; Eol].

End Re.

(** [is_valid_tag_format] (main.py 116-119). *)
Definition is_valid_tag_format (tag : string) : bool :=
  Re.re_match Re.tag_pattern tag.

(** ** Data model: API records and responses *)

(** A call to the API either returns or raises an exception. *)
Inductive res (A : Type) : Type :=
| Ok (a : A)
| Exc (msg : string).
Arguments Ok {A} a.
Arguments Exc {A} msg.

(** A JSON scalar read from a response: a string or [null] ([None]). *)
Inductive pyval :=
| PStr (s : string)
| PNone.

Record Environment := mkEnvironment {
  env_id : Z;
  env_name : string
}.

(** [env.last_deployment]; only the two keys the code reads. *)
Record Deployment := mkDeployment {
  dep_created_at : string;
  dep_ref : string
}.

(** A tag; [tag_commit] is [None] when the attribute is missing or null,
    otherwise the commit dict as an association list. *)
Record Tag := mkTag {
  tag_name : string;
  tag_commit : option (list (string * pyval))
}.

(** [project.namespace] is [None] when missing or falsy; otherwise
    [namespace['name']]. *)
Record Project := mkProject {
  path_with_namespace : string;
  project_name : string;
  namespace_name : option string
}.

(** The server, as a fixed function of each request. *)
Record Api := mkApi {
  api_auth : string -> string -> res unit;                 (* gl.auth() *)
  api_projects_get : string -> res Project;               (* gl.projects.get *)
  api_projects_list : res (list Project);                 (* gl.projects.list(all=True) *)
  api_environments_list : Project -> res (list Environment);
  (* project.environments.get(id), then its last_deployment when it is
     present and truthy *)
  api_environment_last : Project -> Z -> res (option Deployment);
  api_tags_list : Project -> string -> res (list Tag)     (* search=tag_name *)
}.

Record Args := mkArgs {
  arg_url : string;
  arg_token : string;
  arg_project : option string;
  arg_tag : option string
}.

(** ** Standard output and [sys.exit] *)
Module IO.

Inductive outcome (A : Type) : Type :=
| Ret (a : A)
| Exit (code : Z).
Arguments Ret {A} a.
Arguments Exit {A} code.

(** Lines printed, then a value or an exit status. *)
Definition M (A : Type) : Type := (list string * outcome A)%type.

Definition ret {A} (a : A) : M A := ([], Ret a).

Definition bind {A B} (m : M A) (k : A -> M B) : M B :=
  match m with
  | (o1, Ret a) => let (o2, r) := k a in ((o1 ++ o2)%list, r)
  | (o1, Exit z) => (o1, Exit z)
  end.

Definition print (line : string) : M unit := ([line], Ret tt).

Definition sys_exit {A} (code : Z) : M A := ([], Exit code).

(** [for x in xs: ys.append(f(x))] *)
Fixpoint mapM {A B} (f : A -> M B) (xs : list A) : M (list B) :=
  match xs with
  | [] => ret []
  | x :: xs' => bind (f x) (fun y => bind (mapM f xs') (fun ys => ret (y :: ys)))
  end.

(** [for x in xs: f(x)] *)
Fixpoint iterM {A} (f : A -> M unit) (xs : list A) : M unit :=
  match xs with
  | [] => ret tt
  | x :: xs' => bind (f x) (fun _ => iterM f xs')
  end.

End IO.

Notation "x <- c ;; k" := (IO.bind c (fun x => k))
  (at level 61, c at next level, right associativity).
Notation "c ;; k" := (IO.bind c (fun _ => k))
  (at level 61, right associativity).

(** ** The program *)
Section Tracker.

Variable api : Api.

(** [connect_to_gitlab] (40-48). *)
Definition connect_to_gitlab (url token : string) : IO.M unit :=
  match api_auth api url token with
  | Ok _ => IO.ret tt
  | Exc e => IO.print ("Error connecting to GitLab: " ++ e) ;; IO.sys_exit 1
  end.

(** [get_project] (51-57). *)
Definition get_project (project_id : string) : IO.M Project :=
  match api_projects_get api project_id with
  | Ok p => IO.ret p
  | Exc e => IO.print ("Error retrieving project: " ++ e) ;; IO.sys_exit 1
  end.

(** [get_all_projects] (60-66). *)
Definition get_all_projects : IO.M (list Project) :=
  match api_projects_list api with
  | Ok ps => IO.ret ps
  | Exc e => IO.print ("Error retrieving projects: " ++ e) ;; IO.sys_exit 1
  end.

Definition is_production_name (name : string) : bool :=
  Py.contains "production" (Py.lower name).

(** The loop of [get_production_environments]. *)
Definition select_production (environments : list Environment) : list Environment :=
  fold_left (fun production_envs env =>
               if is_production_name (env_name env)
               then (production_envs ++ [env])%list else production_envs)
            environments [].

(** [get_production_environments] (69-85). *)
Definition get_production_environments (project : Project) : IO.M (list Environment) :=
  match api_environments_list api project with
  | Ok environments =>
      let production_envs := select_production environments in
      match production_envs with
      | [] => IO.print ("No production environments found for project "
                         ++ path_with_namespace project ++ ".") ;; IO.ret []
      | _ => IO.ret production_envs
      end
  | Exc e =>
      IO.print ("Error retrieving environments for project "
                ++ path_with_namespace project ++ ": " ++ e) ;; IO.ret []
  end.

(** [get_environment_last_deployment] (88-97). *)
Definition get_environment_last_deployment (project : Project) (environment_id : Z)
  : IO.M (option Deployment) :=
  match api_environment_last api project environment_id with
  | Ok d => IO.ret d
  | Exc e =>
      IO.print ("Error retrieving last deployment for environment "
                ++ Py.Z_to_str environment_id ++ " in project "
                ++ path_with_namespace project ++ ": " ++ e) ;; IO.ret None
  end.

Fixpoint assoc_lookup (k : string) (d : list (string * pyval)) : option pyval :=
  match d with
  | [] => None
  | (k', v) :: d' => if String.eqb k k' then Some v else assoc_lookup k d'
  end.

(** [if hasattr(tag, 'commit') and tag.commit and 'created_at' in tag.commit:
       return tag.commit['created_at']
    return None] *)
Definition commit_created_at (tag : Tag) : pyval :=
  match tag_commit tag with
  | Some ((_ :: _) as d) =>
      match assoc_lookup "created_at" d with
      | Some v => v
      | None => PNone
      end
  | _ => PNone
  end.

(** The loop of [get_tag_creation_date]: first exact name match. *)
Fixpoint scan_tags (tag_name' : string) (tags : list Tag) : pyval :=
  match tags with
  | [] => PNone
  | tag :: tags' =>
      if String.eqb (tag_name tag) tag_name' then commit_created_at tag
      else scan_tags tag_name' tags'
  end.

(** [get_tag_creation_date] (100-113). *)
Definition get_tag_creation_date (project : Project) (tag_name' : string) : IO.M pyval :=
  match api_tags_list api project tag_name' with
  | Ok tags => IO.ret (scan_tags tag_name' tags)
  | Exc e =>
      IO.print ("Error retrieving tag " ++ tag_name' ++ " for project "
                ++ path_with_namespace project ++ ": " ++ e) ;; IO.ret PNone
  end.

End Tracker.

(** The dict built by [get_deployment_info]. *)
Record EnvInfo := mkEnvInfo {
  info_env_name : string;
  info_deploy_created_at : string;
  info_tag_created_at : string
}.

(** [format_csv_row] (154-164). *)
Definition format_csv_row (group project_name' : string) (env_data : list EnvInfo) : string :=
  let row := fold_left (fun row env =>
                          ((row ++ [info_env_name env])
                             ++ [info_deploy_created_at env])
                             ++ [info_tag_created_at env])%list
                       env_data [group; project_name'] in
  Py.join "," row.

Definition csv_header : string :=
  "grupo,projeto,env_name1,deploy_created_at1,tag_created_at1,env_name2,deploy_created_at2,tag_created_at2,env_name3,deploy_created_at3,tag_created_at3,...".

Section Report.

Variable api : Api.

(** [get_deployment_info] (122-151). *)
Definition get_deployment_info (project : Project) (environment : Environment)
  : IO.M EnvInfo :=
  let result := mkEnvInfo (env_name environment) "" "" in
  deployment <- get_environment_last_deployment api project (env_id environment) ;;
  match deployment with
  | None => IO.ret result
  | Some d =>
      let result := mkEnvInfo (info_env_name result) (dep_created_at d)
                              (info_tag_created_at result) in
      let tag_name' := dep_ref d in
      tag_created_at <- get_tag_creation_date api project tag_name' ;;
      match tag_created_at with
      | PStr s =>
          (* [if tag_created_at:] -- the empty string is falsy *)
          if String.eqb s "" then IO.ret result
          else IO.ret (mkEnvInfo (info_env_name result)
                                 (info_deploy_created_at result) s)
      | PNone => IO.ret result
      end
  end.

(** One iteration of the project loop of [main] (185-203). *)
Definition process_project (project : Project) : IO.M unit :=
  let group := match namespace_name project with Some g => g | None => "" end in
  prod_envs <- get_production_environments api project ;;
  match prod_envs with
  | [] => IO.ret tt                                           (* continue *)
  | _ =>
      env_data <- IO.mapM (get_deployment_info project) prod_envs ;;
      match env_data with
      | [] => IO.ret tt
      | _ => IO.print (format_csv_row group (project_name project) env_data)
      end
  end.

(** [main] (167-203); [args.tag] is not read. *)
Definition main (args : Args) : IO.M unit :=
  connect_to_gitlab api (arg_url args) (arg_token args) ;;
  IO.print csv_header ;;
  projects <- (match arg_project args with
               | Some p =>
                   (* [if args.project:] -- the empty string is falsy *)
                   if String.eqb p "" then get_all_projects api
                   else (pr <- get_project api p ;; IO.ret [pr])
               | None => get_all_projects api
               end) ;;
  IO.iterM process_project projects.

End Report.

(** The process from the point where [parse_arguments()] has returned:
    standard output and exit status (0 when [main] returns normally).
    argparse's own rejection of a command line (usage on stderr, status 2)
    happens before and is not part of this model; [args] are the parsed
    values. *)
Definition run (args : Args) (api : Api) : list string * Z :=
  match main api args with
  | (out, IO.Ret _) => (out, 0%Z)
  | (out, IO.Exit code) => (out, code)
  end.

(** The tag format as the specification words it: the whole string is
    [v], digits, [.], digits, [.], digits, every digit run non-empty. *)
Definition tag_format_spec (s : string) : bool :=
  let digits d := negb (String.eqb d "") &&
                  forallb Re.is_digit (list_ascii_of_string d) in
  match s with
  | String c rest =>
      Ascii.eqb c "v" &&
      match Py.split "." rest with
      | [a; b; c'] => digits a && digits b && digits c'
      | _ => false
      end
  | EmptyString => false
  end.

(** Occurrences of a character in a string. *)
Fixpoint count_char (c : ascii) (s : string) : nat :=
  match s with
  | EmptyString => 0
  | String c' s' => (if Ascii.eqb c' c then 1 else 0) + count_char c s'
  end.

(** A non-empty run of ASCII digits, what [\d+] matches. *)
Definition digit_string (a : string) : bool :=
  negb (String.eqb a "") && forallb Re.is_digit (list_ascii_of_string a).

(** ** Sample inputs *)
Module Sample.

Definition proj : Project := mkProject "grp/app" "app" (Some "grp").

Definition envs : list Environment :=
  [mkEnvironment 1 "Production"; mkEnvironment 2 "staging";
   mkEnvironment 3 "old-production"].

Definition dep : Deployment := mkDeployment "2024-01-01T10:00:00Z" "v1.0.0".

Definition tags : list Tag :=
  [mkTag "v1.0.0-rc1" None;
   mkTag "v1.0.0" (Some [("id", PStr "abc"); ("created_at", PStr "2023-12-01T09:00:00Z")])].

(** A server with one project; environment 3 fails to load. *)
Definition api : Api :=
  mkApi (fun _ _ => Ok tt) (fun _ => Ok proj) (Ok [proj])
        (fun _ => Ok envs)
        (fun _ i => if Z.eqb i 1 then Ok (Some dep) else Exc "500 Internal Server Error")
        (fun _ _ => Ok tags).


(** A server that refuses the token. *)
Definition api_auth_fails : Api :=
  mkApi (fun _ _ => Exc "401: 401 Unauthorized") (fun _ => Ok proj) (Ok [proj])
        (fun _ => Ok envs) (fun _ _ => Ok None) (fun _ _ => Ok []).

Definition args_single (tag : option string) : Args :=
  mkArgs "https://gitlab.example.com" "glpat-x" (Some "grp/app") tag.

Definition args_all (tag : option string) : Args :=
  mkArgs "https://gitlab.example.com" "glpat-x" None tag.

(** A server on which every call succeeds; the tag list holds two
    candidates with the same name. *)
Definition tags_dup : list Tag :=
  [mkTag "v1.0.0-rc1" None;
   mkTag "v1.0.0" (Some [("created_at", PStr "2023-12-01T09:00:00Z")]);
   mkTag "v1.0.0" (Some [("created_at", PStr "2099-01-01T00:00:00Z")])].

Definition api_ok : Api :=
  mkApi (fun _ _ => Ok tt) (fun _ => Ok proj) (Ok [proj])
        (fun _ => Ok envs)
        (fun _ i => if Z.eqb i 1 then Ok (Some dep) else Ok None)
        (fun _ _ => Ok tags_dup).

(** A server whose project calls fail. *)
Definition api_projects_fail : Api :=
  mkApi (fun _ _ => Ok tt) (fun _ => Exc "404 Project Not Found")
        (Exc "403 Forbidden")
        (fun _ => Ok envs) (fun _ _ => Ok None) (fun _ _ => Ok []).

End Sample.

(** ** Lemmas *)

Lemma prefix_app (sub s : string) :
  prefix sub s = true <-> exists suf, s = sub ++ suf.
Proof.
  revert s; induction sub as [|a sub IH]; intros s; simpl.
  - split; [intros _; exists s; reflexivity | destruct s; reflexivity].
  - destruct s as [|b s]; simpl.
    + split; [discriminate | intros [suf H]; discriminate].
    + destruct (ascii_dec a b) as [->|Hne].
      * rewrite IH. split; intros [suf H]; exists suf;
          [rewrite H; reflexivity | injection H; auto].
      * split; [discriminate | intros [suf H]; injection H; congruence].
Qed.

Lemma contains_app (sub s : string) :
  Py.contains sub s = true <-> exists pre suf, s = pre ++ sub ++ suf.
Proof.
  induction s as [|c s IH]; cbn [Py.contains].
  - destruct sub as [|a sub]; simpl; split.
    + intros _; exists "", ""; reflexivity.
    + reflexivity.
    + discriminate.
    + intros [pre [suf H]]; destruct pre; discriminate.
  - rewrite orb_true_iff, prefix_app, IH. split.
    + intros [[suf H] | [pre [suf H]]].
      * exists "", suf; exact H.
      * exists (String c pre), suf; rewrite H; reflexivity.
    + intros [pre [suf H]]. destruct pre as [|c' pre].
      * left; exists suf; exact H.
      * right; exists pre, suf; injection H; auto.
Qed.

Lemma select_production_acc (l acc : list Environment) :
  fold_left (fun production_envs env =>
               if is_production_name (env_name env)
               then (production_envs ++ [env])%list else production_envs) l acc
  = (acc ++ filter (fun e => is_production_name (env_name e)) l)%list.
Proof.
  revert acc; induction l as [|e l IH]; intros acc; simpl.
  - rewrite app_nil_r; reflexivity.
  - destruct (is_production_name (env_name e)); rewrite IH;
      [rewrite <- app_assoc; reflexivity | reflexivity].
Qed.

Lemma select_production_filter (l : list Environment) :
  select_production l = filter (fun e => is_production_name (env_name e)) l.
Proof. unfold select_production; rewrite select_production_acc; reflexivity. Qed.

Lemma bind_ret {A B} (o : list string) (a : A) (k : A -> IO.M B) :
  IO.bind (o, IO.Ret a) k = ((o ++ fst (k a))%list, snd (k a)).
Proof. unfold IO.bind; destruct (k a); reflexivity. Qed.

Lemma bind_unit {A B} (a : A) (k : A -> IO.M B) : IO.bind (IO.ret a) k = k a.
Proof. unfold IO.ret; rewrite bind_ret; destruct (k a); reflexivity. Qed.

Lemma bind_print {B} (l : string) (k : unit -> IO.M B) :
  IO.bind (IO.print l) k = (l :: fst (k tt), snd (k tt)).
Proof. unfold IO.print; rewrite bind_ret; reflexivity. Qed.

Lemma iterM_all_ret {A} (f : A -> IO.M unit) (xs : list A) :
  (forall x, snd (f x) = IO.Ret tt) ->
  IO.iterM f xs = (List.concat (map (fun x => fst (f x)) xs), IO.Ret tt).
Proof.
  intros H; induction xs as [|x xs IH]; [reflexivity|].
  cbn [IO.iterM]. specialize (H x). destruct (f x) as [o r] eqn:E.
  simpl in H; subst r. rewrite bind_ret, IH. simpl. rewrite E. reflexivity.
Qed.

(** The four possible outcomes of [get_production_environments]. *)
Lemma get_production_environments_shape (api : Api) (p : Project) :
  (exists envs, api_environments_list api p = Ok envs /\
     ((select_production envs = [] /\
       get_production_environments api p =
         (["No production environments found for project "
           ++ path_with_namespace p ++ "."], IO.Ret [])) \/
      (select_production envs <> [] /\
       get_production_environments api p = ([], IO.Ret (select_production envs))))) \/
  (exists e, api_environments_list api p = Exc e /\
     get_production_environments api p =
       (["Error retrieving environments for project "
         ++ path_with_namespace p ++ ": " ++ e], IO.Ret [])).
Proof.
  unfold get_production_environments.
  destruct (api_environments_list api p) as [envs|e].
  - left; exists envs; split; [reflexivity|].
    destruct (select_production envs) as [|x xs] eqn:E.
    + left; split; reflexivity.
    + right; split; [discriminate | reflexivity].
  - right; exists e; split; reflexivity.
Qed.

Definition error_line (l : string) : Prop := prefix "Error retrieving " l = true.

Lemma get_deployment_info_shape (api : Api) (p : Project) (env : Environment) :
  exists out info,
    get_deployment_info api p env = (out, IO.Ret info) /\
    info_env_name info = env_name env /\ Forall error_line out.
Proof.
  unfold get_deployment_info, get_environment_last_deployment.
  destruct (api_environment_last api p (env_id env)) as [[d|]|e].
  - rewrite bind_unit. unfold get_tag_creation_date.
    destruct (api_tags_list api p (dep_ref d)) as [tags|e].
    + rewrite bind_unit.
      destruct (scan_tags (dep_ref d) tags) as [s|];
        [destruct (String.eqb s "")|]; eexists; eexists; repeat split; constructor.
    + cbv [IO.bind IO.print IO.ret]; simpl.
      eexists; eexists; repeat split. repeat constructor.
  - rewrite bind_unit. eexists; eexists; repeat split; constructor.
  - cbv [IO.bind IO.print IO.ret]; simpl.
    eexists; eexists; repeat split. repeat constructor.
Qed.

Lemma mapM_deployment_info (api : Api) (p : Project) (envs : list Environment) :
  exists out data,
    IO.mapM (get_deployment_info api p) envs = (out, IO.Ret data) /\
    map info_env_name data = map env_name envs /\ Forall error_line out.
Proof.
  induction envs as [|env envs IH].
  - exists [], []; repeat split; constructor.
  - destruct IH as [out [data [E [Hn Hf]]]].
    destruct (get_deployment_info_shape api p env) as [o [i [Ei [Hi Hfi]]]].
    cbn [IO.mapM]. rewrite Ei, bind_ret, E, bind_ret.
    exists (o ++ (out ++ []))%list, (i :: data); simpl; repeat split.
    + rewrite Hi, Hn; reflexivity.
    + rewrite app_nil_r; apply Forall_app; split; assumption.
Qed.

Lemma format_csv_row_acc (l : list EnvInfo) (acc : list string) :
  fold_left (fun row env =>
               ((row ++ [info_env_name env]) ++ [info_deploy_created_at env])
                 ++ [info_tag_created_at env])%list l acc
  = (acc ++ flat_map (fun i => [info_env_name i; info_deploy_created_at i;
                                 info_tag_created_at i]) l)%list.
Proof.
  revert acc; induction l as [|i l IH]; intros acc; simpl.
  - rewrite app_nil_r; reflexivity.
  - rewrite IH. rewrite <- !app_assoc. reflexivity.
Qed.

Lemma format_csv_row_fields (group name : string) (data : list EnvInfo) :
  format_csv_row group name data =
  Py.join "," (group :: name :: flat_map (fun i => [info_env_name i;
                 info_deploy_created_at i; info_tag_created_at i]) data).
Proof. unfold format_csv_row; rewrite format_csv_row_acc; reflexivity. Qed.

Lemma flat_map_triples_length (data : list EnvInfo) :
  List.length (flat_map (fun i => [info_env_name i; info_deploy_created_at i;
                              info_tag_created_at i]) data) = 3 * List.length data.
Proof. induction data as [|i data IH]; simpl; [reflexivity | rewrite IH; lia]. Qed.

Lemma process_project_ret (api : Api) (p : Project) :
  snd (process_project api p) = IO.Ret tt.
Proof.
  unfold process_project.
  destruct (get_production_environments_shape api p)
    as [[envs [_ [[_ E] | [_ E]]]] | [e [_ E]]]; rewrite E, bind_ret; simpl; auto.
  destruct (select_production envs) as [|x xs]; [reflexivity|].
  destruct (mapM_deployment_info api p (x :: xs)) as [o [data [Em _]]].
  rewrite Em, bind_ret. destruct data; reflexivity.
Qed.

(** Once connected and with its project list, [run] is the header followed
    by each project's lines, and exits with 0. *)
Lemma run_all_projects (api : Api) (args : Args) (ps : list Project) :
  api_auth api (arg_url args) (arg_token args) = Ok tt ->
  (arg_project args = None \/ arg_project args = Some "") ->
  api_projects_list api = Ok ps ->
  run args api = (csv_header :: List.concat (map (fun p => fst (process_project api p)) ps), 0%Z).
Proof.
  intros Ha Hp Hl. unfold run, main, connect_to_gitlab. rewrite Ha.
  rewrite bind_unit, bind_print. cbv beta.
  assert (Hsel : (match arg_project args with
                  | Some p => if String.eqb p "" then get_all_projects api
                              else (pr <- get_project api p ;; IO.ret [pr])
                  | None => get_all_projects api end) = ([], IO.Ret ps)).
  { unfold get_all_projects; destruct Hp as [-> | ->]; simpl; rewrite Hl; reflexivity. }
  rewrite Hsel, bind_ret, iterM_all_ret by apply process_project_ret.
  reflexivity.
Qed.

Lemma run_single_project (api : Api) (args : Args) (id : string) (p : Project) :
  api_auth api (arg_url args) (arg_token args) = Ok tt ->
  arg_project args = Some id -> id <> "" ->
  api_projects_get api id = Ok p ->
  run args api = (csv_header :: fst (process_project api p), 0%Z).
Proof.
  intros Ha Hp Hne Hg. unfold run, main, connect_to_gitlab. rewrite Ha.
  rewrite bind_unit, bind_print. cbv beta. rewrite Hp.
  destruct (String.eqb_spec id "") as [E|_]; [contradiction|].
  unfold get_project; rewrite Hg, bind_unit, bind_unit.
  cbn [IO.iterM]. pose proof (process_project_ret api p) as Hr.
  destruct (process_project api p) as [o r]; simpl in Hr; subst r.
  rewrite bind_ret. simpl. rewrite !app_nil_r. reflexivity.
Qed.

Lemma commit_created_at_absent (tag : Tag) :
  (tag_commit tag = None \/
   exists d, tag_commit tag = Some d /\
     (assoc_lookup "created_at" d = None \/ assoc_lookup "created_at" d = Some PNone)) ->
  commit_created_at tag = PNone.
Proof.
  unfold commit_created_at. intros [-> | [d [-> [H | H]]]]; [reflexivity| |];
    destruct d as [|kv d']; try reflexivity; rewrite H; reflexivity.
Qed.

Lemma scan_tags_found (name t : string) (tags : list Tag) :
  scan_tags name tags = PStr t ->
  exists tag d, In tag tags /\ tag_name tag = name /\ tag_commit tag = Some d /\
                assoc_lookup "created_at" d = Some (PStr t).
Proof.
  induction tags as [|tag tags IH]; simpl; [discriminate|].
  destruct (String.eqb_spec (tag_name tag) name) as [Hn|_].
  - unfold commit_created_at. destruct (tag_commit tag) as [[|kv d']|] eqn:Ec;
      try discriminate.
    destruct (assoc_lookup "created_at" (kv :: d')) as [v|] eqn:El; [|discriminate].
    intros ->. exists tag, (kv :: d'); auto.
  - intros H; destruct (IH H) as [tag' [d [Hin R]]]; exists tag', d; auto.
Qed.

Lemma scan_tags_no_match (name : string) (tags : list Tag) :
  (forall tag, In tag tags -> tag_name tag <> name) -> scan_tags name tags = PNone.
Proof.
  induction tags as [|tag tags IH]; simpl; intros H; [reflexivity|].
  destruct (String.eqb_spec (tag_name tag) name) as [Hn|_].
  - exfalso; exact (H tag (or_introl eq_refl) Hn).
  - apply IH; intros tag' Hin; apply H; auto.
Qed.

Lemma scan_tags_no_timestamp (name : string) (tags : list Tag) :
  (forall tag, In tag tags -> tag_name tag = name ->
     tag_commit tag = None \/
     exists d, tag_commit tag = Some d /\
       (assoc_lookup "created_at" d = None \/ assoc_lookup "created_at" d = Some PNone)) ->
  scan_tags name tags = PNone.
Proof.
  induction tags as [|tag tags IH]; simpl; intros H; [reflexivity|].
  destruct (String.eqb_spec (tag_name tag) name) as [Hn|_].
  - apply commit_created_at_absent, H; auto.
  - apply IH; intros tag' Hin; apply H; auto.
Qed.

Lemma split_nonempty (sep : ascii) (s : string) : Py.split sep s <> [].
Proof.
  destruct s as [|c s]; simpl; [discriminate|].
  destruct (Ascii.eqb c sep); [discriminate|].
  destruct (Py.split sep s); discriminate.
Qed.

Lemma split_app_sep (sep : ascii) (s1 s2 : string) :
  Py.split sep (s1 ++ String sep s2) = (Py.split sep s1 ++ Py.split sep s2)%list.
Proof.
  induction s1 as [|c s1 IH]; simpl.
  - rewrite Ascii.eqb_refl; reflexivity.
  - rewrite IH. destruct (Ascii.eqb c sep); [reflexivity|].
    pose proof (split_nonempty sep s1) as Hne.
    destruct (Py.split sep s1) as [|h t]; [contradiction | reflexivity].
Qed.

Lemma split_length (sep : ascii) (s : string) :
  List.length (Py.split sep s) = S (count_char sep s).
Proof.
  induction s as [|c s IH]; simpl; [reflexivity|].
  destruct (Ascii.eqb c sep); simpl; [rewrite IH; reflexivity|].
  pose proof (split_nonempty sep s) as Hne.
  destruct (Py.split sep s) as [|h t]; [contradiction|]. simpl in *; exact IH.
Qed.

Lemma split_join_comma (l : list string) :
  l <> [] -> Py.split "," (Py.join "," l) = flat_map (Py.split ",") l.
Proof.
  induction l as [|x [|y l] IH]; intros Hne; [contradiction| |].
  - simpl. rewrite app_nil_r; reflexivity.
  - unfold Py.join in *. change (String.concat "," (x :: y :: l))
      with (x ++ String "," (String.concat "," (y :: l))).
    rewrite split_app_sep, IH by discriminate. reflexivity.
Qed.

Lemma prefix_single (c c' : ascii) (s : string) :
  prefix (String c "") (String c' s) = Ascii.eqb c c'.
Proof.
  simpl. destruct (ascii_dec c c') as [->|Hne].
  - rewrite Ascii.eqb_refl; destruct s; reflexivity.
  - symmetry; apply Ascii.eqb_neq; exact Hne.
Qed.

Lemma count_char_contains (c : ascii) (s : string) :
  count_char c s = 0 <-> Py.contains (String c "") s = false.
Proof.
  induction s as [|c' s IH]; cbn [count_char Py.contains]; [split; reflexivity|].
  rewrite prefix_single. destruct (Ascii.eqb_spec c c') as [->|Hne].
  - rewrite Ascii.eqb_refl; simpl; split; discriminate.
  - assert (E : Ascii.eqb c' c = false) by (apply Ascii.eqb_neq; congruence).
    rewrite E; simpl; exact IH.
Qed.

Lemma split_fields_length (l : list string) :
  List.length (flat_map (Py.split ",") l) = List.length l + list_sum (map (count_char ",") l).
Proof.
  induction l as [|x l IH]; simpl; [reflexivity|].
  rewrite length_app, split_length, IH; simpl; lia.
Qed.

Lemma list_sum_zero (l : list nat) : list_sum l = 0 <-> Forall (fun n => n = 0) l.
Proof.
  induction l as [|n l IH]; simpl; [split; auto|].
  rewrite Forall_cons_iff, <- IH; lia.
Qed.

Lemma run_auth_fails (api : Api) (args : Args) (e : string) :
  api_auth api (arg_url args) (arg_token args) = Exc e ->
  run args api = (["Error connecting to GitLab: " ++ e], 1%Z).
Proof. intros Ha. unfold run, main, connect_to_gitlab. rewrite Ha. reflexivity. Qed.

Lemma run_get_project_fails (api : Api) (args : Args) (id e : string) :
  api_auth api (arg_url args) (arg_token args) = Ok tt ->
  arg_project args = Some id -> id <> "" ->
  api_projects_get api id = Exc e ->
  run args api = ([csv_header; "Error retrieving project: " ++ e], 1%Z).
Proof.
  intros Ha Hp Hne Hg. unfold run, main, connect_to_gitlab. rewrite Ha.
  rewrite bind_unit, bind_print. cbv beta. rewrite Hp.
  destruct (String.eqb_spec id "") as [E|_]; [contradiction|].
  unfold get_project; rewrite Hg. reflexivity.
Qed.

Lemma run_list_projects_fails (api : Api) (args : Args) (e : string) :
  api_auth api (arg_url args) (arg_token args) = Ok tt ->
  (arg_project args = None \/ arg_project args = Some "") ->
  api_projects_list api = Exc e ->
  run args api = ([csv_header; "Error retrieving projects: " ++ e], 1%Z).
Proof.
  intros Ha Hp Hl. unfold run, main, connect_to_gitlab. rewrite Ha.
  rewrite bind_unit, bind_print. cbv beta.
  destruct Hp as [-> | ->]; simpl; unfold get_all_projects; rewrite Hl; reflexivity.
Qed.

(** Exit status of [run]: 0 or 1, and 1 exactly on a failed connection,
    project lookup or project listing. *)
Lemma run_exit_cases (api : Api) (args : Args) :
  (snd (run args api) = 0%Z \/ snd (run args api) = 1%Z) /\
  (snd (run args api) = 1%Z <->
   (exists e, api_auth api (arg_url args) (arg_token args) = Exc e) \/
   (api_auth api (arg_url args) (arg_token args) = Ok tt /\
    ((exists id e, arg_project args = Some id /\ id <> "" /\ api_projects_get api id = Exc e) \/
     ((arg_project args = None \/ arg_project args = Some "") /\
      exists e, api_projects_list api = Exc e)))).
Proof.
  destruct (api_auth api (arg_url args) (arg_token args)) as [[]|e] eqn:Ha.
  - assert (Hmode : (exists id, arg_project args = Some id /\ id <> "") \/
                    (arg_project args = None \/ arg_project args = Some "")).
    { destruct (arg_project args) as [id|]; [|right; left; reflexivity].
      destruct (String.eqb_spec id "") as [->|Hne]; [right; right; reflexivity|].
      left; exists id; auto. }
    destruct Hmode as [[id [Hp Hne]] | Hp].
    + destruct (api_projects_get api id) as [p|e] eqn:Hg.
      * rewrite (run_single_project api args id p Ha Hp Hne Hg); simpl.
        split; [left; reflexivity|]. split; [discriminate|].
        intros [[e He] | [_ [[id' [e [Hp' [_ Hg']]]] | [[Hn | Hn] _]]]]; congruence.
      * rewrite (run_get_project_fails api args id e Ha Hp Hne Hg); simpl.
        split; [right; reflexivity|]. split; [|reflexivity].
        intros _; right; split; [reflexivity|]. left; exists id, e; auto.
    + destruct (api_projects_list api) as [ps|e] eqn:Hl.
      * rewrite (run_all_projects api args ps Ha Hp Hl); simpl.
        split; [left; reflexivity|]. split; [discriminate|].
        intros [[e He] | [_ [[id' [e [Hp' [Hne' _]]]] | [_ [e He]]]]]; [congruence| |congruence].
        destruct Hp as [Hn | Hn]; rewrite Hn in Hp'; [discriminate|].
        injection Hp'; intros; subst; contradiction.
      * rewrite (run_list_projects_fails api args e Ha Hp Hl); simpl.
        split; [right; reflexivity|]. split; [|reflexivity].
        intros _; right; split; [reflexivity|]. right; split; [exact Hp | exists e; reflexivity].
  - rewrite (run_auth_fails api args e Ha); simpl.
    split; [right; reflexivity|]. split; [|reflexivity]. intros _; left; exists e; reflexivity.
Qed.

(** ** Claims *)

(** C1: with the environment list retrieved, substring mode returns the
    environments whose lower-cased name contains "production", exactly
    those, in input order; none when none match. *)
Theorem C1_substring_selection (api : Api) (p : Project) (envs : list Environment)
  (Hlist : api_environments_list api p = Ok envs) :
  exists out sel,
    get_production_environments api p = (out, IO.Ret sel) /\
    sel = filter (fun e => is_production_name (env_name e)) envs /\
    (forall e, In e sel <->
       In e envs /\ exists pre suf, Py.lower (env_name e) = pre ++ "production" ++ suf) /\
    ((forall e, In e envs -> ~ exists pre suf,
         Py.lower (env_name e) = pre ++ "production" ++ suf) -> sel = []).
Proof.
  unfold get_production_environments; rewrite Hlist, select_production_filter.
  set (sel := filter _ envs).
  assert (Hin : forall e, In e sel <->
            In e envs /\ exists pre suf, Py.lower (env_name e) = pre ++ "production" ++ suf).
  { intros e; unfold sel; rewrite filter_In; unfold is_production_name;
      rewrite contains_app; tauto. }
  assert (Hmatch : exists out, (match sel with
                     | [] => IO.print ("No production environments found for project "
                                ++ path_with_namespace p ++ ".") ;; IO.ret []
                     | _ => IO.ret sel end) = (out, IO.Ret sel)).
  { destruct sel; eexists; reflexivity. }
  destruct Hmatch as [out Hout]; exists out, sel; repeat split; auto;
    try (apply Hin; assumption).
  intros Hnone. destruct sel as [|e sel']; [reflexivity|].
  exfalso. destruct (proj1 (Hin e) (or_introl eq_refl)) as [He Hc].
  exact (Hnone e He Hc).
Qed.

Lemma C1_substring_selection_witness :
  api_environments_list Sample.api Sample.proj = Ok Sample.envs /\
  exists out sel,
    get_production_environments Sample.api Sample.proj = (out, IO.Ret sel) /\
    sel = filter (fun e => is_production_name (env_name e)) Sample.envs /\
    (forall e, In e sel <->
       In e Sample.envs /\ exists pre suf, Py.lower (env_name e) = pre ++ "production" ++ suf) /\
    ((forall e, In e Sample.envs -> ~ exists pre suf,
         Py.lower (env_name e) = pre ++ "production" ++ suf) -> sel = []).
Proof.
  split; [reflexivity|].
  apply (C1_substring_selection Sample.api Sample.proj Sample.envs); reflexivity.
Defined.

(** C5: the validator accepts "v1.2.3" and rejects "1.2.3", "v1.2",
    "v1.2.3-rc1" and "V1.2.3", but Python's [$] also matches before a final
    newline, so "v1.2.3\n" is accepted although the whole string is not of
    the form v<digits>.<digits>.<digits>. *)
Theorem C5_trailing_newline_accepted :
  is_valid_tag_format "v1.2.3" = true /\
  is_valid_tag_format "1.2.3" = false /\
  is_valid_tag_format "v1.2" = false /\
  is_valid_tag_format "v1.2.3-rc1" = false /\
  is_valid_tag_format "V1.2.3" = false /\
  is_valid_tag_format ("v1.2.3" ++ Py.newline) = true /\
  tag_format_spec ("v1.2.3" ++ Py.newline) = false.
Proof. vm_compute. repeat split. Qed.




(** C3: at the failing input --tag 1.2.3 (not of the form v<maj>.<min>.<patch>)
    no warning is printed and no check is made: the output is that of the
    run without --tag, header, one retrieval error and the row. *)
Lemma C3_invalid_tag_no_warning :
  is_valid_tag_format "1.2.3" = false /\
  run (Sample.args_single (Some "1.2.3")) Sample.api =
    run (Sample.args_single None) Sample.api /\
  fst (run (Sample.args_single (Some "1.2.3")) Sample.api) =
    [csv_header;
     "Error retrieving last deployment for environment 3 in project grp/app: 500 Internal Server Error";
     "grp,app,Production,2024-01-01T10:00:00Z,2023-12-01T09:00:00Z,old-production,,"].
Proof. vm_compute. repeat split. Qed.

(** C4 (counterexample): when authentication fails, standard output holds
    only the connection error, not the header, and the exit status is 1. *)
Lemma C4_auth_failure_no_header :
  run (Sample.args_all None) Sample.api_auth_fails =
    (["Error connecting to GitLab: 401: 401 Unauthorized"], 1%Z) /\
  hd_error (fst (run (Sample.args_all None) Sample.api_auth_fails)) <> Some csv_header.
Proof. vm_compute. split; [reflexivity | discriminate]. Qed.

(** C4 (amended): once connected, the header is the first line of output;
    a refused connection prints only its error and exits with 1.  A project
    with no matched environment produces no row, only the one notice (or
    environment-retrieval error) line of [get_production_environments]; a
    project with N >= 1 matched environments produces, after retrieval-error
    lines only, exactly one row: the comma-join of 2 + 3N fields, group,
    project name, then one (name, deploy time, tag time) triple per matched
    environment, in order. *)
Theorem C4_csv_layout (api : Api) :
  (forall args, api_auth api (arg_url args) (arg_token args) = Ok tt ->
     exists rest, fst (run args api) = csv_header :: rest) /\
  (forall args e, api_auth api (arg_url args) (arg_token args) = Exc e ->
     run args api = (["Error connecting to GitLab: " ++ e], 1%Z)) /\
  (forall p m1, get_production_environments api p = (m1, IO.Ret []) ->
     process_project api p = (m1, IO.Ret tt) /\
     (m1 = ["No production environments found for project " ++ path_with_namespace p ++ "."] \/
      exists e, m1 = ["Error retrieving environments for project "
                      ++ path_with_namespace p ++ ": " ++ e])) /\
  (forall p m1 envs, get_production_environments api p = (m1, IO.Ret envs) ->
     envs <> [] ->
     m1 = [] /\
     exists m2 data fields,
       process_project api p = ((m2 ++ [Py.join "," fields])%list, IO.Ret tt) /\
       Forall error_line m2 /\
       map info_env_name data = map env_name envs /\
       fields = (match namespace_name p with Some g => g | None => "" end)
                :: project_name p
                :: flat_map (fun i => [info_env_name i; info_deploy_created_at i;
                                        info_tag_created_at i]) data /\
       List.length fields = 2 + 3 * List.length envs).
Proof.
  split; [|split; [|split]].
  - intros args Ha. unfold run, main, connect_to_gitlab. rewrite Ha.
    rewrite bind_unit, bind_print.
    destruct (_ : IO.M unit) as [o r]; destruct r; eexists; reflexivity.
  - intros args e; apply run_auth_fails.
  - intros p m1 E. split.
    + unfold process_project. rewrite E, bind_ret. simpl. rewrite app_nil_r; reflexivity.
    + destruct (get_production_environments_shape api p)
        as [[envs [_ [[_ E'] | [Hne' E']]]] | [e [_ E']]]; rewrite E' in E;
        injection E; intros; subst; auto.
      * exfalso; apply Hne'; symmetry; congruence.
      * right; exists e; reflexivity.
  - intros p m1 envs E Hne.
    assert (Hm1 : m1 = []).
    { destruct (get_production_environments_shape api p)
        as [[envs' [_ [[_ E'] | [_ E']]]] | [e [_ E']]]; rewrite E' in E;
        injection E; intros; subst; auto; contradiction. }
    subst m1. split; [reflexivity|].
    unfold process_project. rewrite E, bind_ret.
    destruct envs as [|x xs]; [contradiction|].
    destruct (mapM_deployment_info api p (x :: xs)) as [m2 [data [Em [Hn Hf]]]].
    assert (Hlen : List.length data = List.length (x :: xs)).
    { rewrite <- (length_map info_env_name data), Hn, length_map; reflexivity. }
    cbv beta iota. rewrite Em, bind_ret.
    destruct data as [|d ds]; [discriminate|].
    eexists m2, (d :: ds), _; split; [|split; [exact Hf|split; [exact Hn|split; [reflexivity|]]]].
    + unfold IO.print; simpl. rewrite format_csv_row_fields. reflexivity.
    + change (S (S (List.length (flat_map (fun i => [info_env_name i;
                 info_deploy_created_at i; info_tag_created_at i]) (d :: ds))))
              = 2 + 3 * List.length (x :: xs)).
      rewrite flat_map_triples_length, Hlen. lia.
Qed.

(** C9: two runs that differ only in --tag have the same output and exit
    status. *)
Theorem C9_tag_argument_unused (api : Api) (a1 a2 : Args)
  (Hurl : arg_url a1 = arg_url a2) (Htok : arg_token a1 = arg_token a2)
  (Hproj : arg_project a1 = arg_project a2) :
  run a1 api = run a2 api.
Proof. unfold run, main. rewrite Hurl, Htok, Hproj. reflexivity. Qed.

Lemma C9_tag_argument_unused_witness :
  run (Sample.args_all (Some "v1.0.0")) Sample.api = run (Sample.args_all None) Sample.api.
Proof.
  apply (C9_tag_argument_unused Sample.api (Sample.args_all (Some "v1.0.0"))
           (Sample.args_all None)); reflexivity.
Defined.

(** C6: a timestamp is returned only from a server-returned tag whose name
    equals the requested one exactly; with no exact match, or when every
    exact match carries no commit creation timestamp, the result is
    absent ([None]). *)
Theorem C6_tag_exact_match (api : Api) (p : Project) (name : string) :
  (forall t, snd (get_tag_creation_date api p name) = IO.Ret (PStr t) ->
     exists tags tag d,
       api_tags_list api p name = Ok tags /\ In tag tags /\ tag_name tag = name /\
       tag_commit tag = Some d /\ assoc_lookup "created_at" d = Some (PStr t)) /\
  (forall tags, api_tags_list api p name = Ok tags ->
     (forall tag, In tag tags -> tag_name tag <> name) ->
     snd (get_tag_creation_date api p name) = IO.Ret PNone) /\
  (forall tags, api_tags_list api p name = Ok tags ->
     (forall tag, In tag tags -> tag_name tag = name ->
        tag_commit tag = None \/
        exists d, tag_commit tag = Some d /\
          (assoc_lookup "created_at" d = None \/ assoc_lookup "created_at" d = Some PNone)) ->
     snd (get_tag_creation_date api p name) = IO.Ret PNone).
Proof.
  unfold get_tag_creation_date. split; [|split].
  - intros t. destruct (api_tags_list api p name) as [tags|e].
    + simpl. intros H; injection H; intros Hs.
      destruct (scan_tags_found name t tags Hs) as [tag [d R]].
      exists tags, tag, d; auto.
    + rewrite bind_print; simpl; discriminate.
  - intros tags -> H; simpl; rewrite scan_tags_no_match; auto.
  - intros tags -> H; simpl; rewrite scan_tags_no_timestamp; auto.
Qed.

(** C7: retrieval errors of environments, last deployments and tags are
    printed and turned into the value that "no data" gives; no helper of a
    project exits, so the run goes on with the next project. *)
Theorem C7_errors_degrade_to_no_data (api : Api) :
  (forall p e, api_environments_list api p = Exc e ->
     get_production_environments api p =
       (["Error retrieving environments for project " ++ path_with_namespace p ++ ": " ++ e],
        IO.Ret [])) /\
  (forall p envs, api_environments_list api p = Ok envs ->
     select_production envs = [] -> snd (get_production_environments api p) = IO.Ret []) /\
  (forall p i e, api_environment_last api p i = Exc e ->
     get_environment_last_deployment api p i =
       (["Error retrieving last deployment for environment " ++ Py.Z_to_str i
         ++ " in project " ++ path_with_namespace p ++ ": " ++ e], IO.Ret None)) /\
  (forall p i, api_environment_last api p i = Ok None ->
     snd (get_environment_last_deployment api p i) = IO.Ret None) /\
  (forall p name e, api_tags_list api p name = Exc e ->
     get_tag_creation_date api p name =
       (["Error retrieving tag " ++ name ++ " for project " ++ path_with_namespace p
         ++ ": " ++ e], IO.Ret PNone)) /\
  (forall p name tags, api_tags_list api p name = Ok tags ->
     (forall tag, In tag tags -> tag_name tag <> name) ->
     snd (get_tag_creation_date api p name) = IO.Ret PNone) /\
  (forall p, snd (process_project api p) = IO.Ret tt) /\
  (forall args ps, api_auth api (arg_url args) (arg_token args) = Ok tt ->
     arg_project args = None -> api_projects_list api = Ok ps ->
     run args api =
       (csv_header :: List.concat (map (fun p => fst (process_project api p)) ps), 0%Z)).
Proof.
  repeat split.
  - intros p e H; unfold get_production_environments; rewrite H, bind_print; reflexivity.
  - intros p envs H Hs; unfold get_production_environments; rewrite H, Hs, bind_print;
      reflexivity.
  - intros p i e H; unfold get_environment_last_deployment; rewrite H, bind_print;
      reflexivity.
  - intros p i H; unfold get_environment_last_deployment; rewrite H; reflexivity.
  - intros p name e H; unfold get_tag_creation_date; rewrite H, bind_print; reflexivity.
  - intros p name tags H Hn; unfold get_tag_creation_date; rewrite H; simpl;
      rewrite scan_tags_no_match; auto.
  - intros p; apply process_project_ret.
  - intros args ps Ha Hp Hl; apply run_all_projects; auto.
Qed.

(** C8: absent deployment gives the environment name with empty deploy and
    tag fields; a deployment whose tag lookup is absent (or empty) gives an
    empty tag field; each environment always contributes its three fields
    to the row, empty ones included. *)
Theorem C8_absent_fields_empty (api : Api) :
  (forall p env, (api_environment_last api p (env_id env) = Ok None \/
                  exists e, api_environment_last api p (env_id env) = Exc e) ->
     snd (get_deployment_info api p env) = IO.Ret (mkEnvInfo (env_name env) "" "")) /\
  (forall p env d, api_environment_last api p (env_id env) = Ok (Some d) ->
     (snd (get_tag_creation_date api p (dep_ref d)) = IO.Ret PNone \/
      snd (get_tag_creation_date api p (dep_ref d)) = IO.Ret (PStr "")) ->
     snd (get_deployment_info api p env) =
       IO.Ret (mkEnvInfo (env_name env) (dep_created_at d) "")) /\
  (forall group name data,
     format_csv_row group name data =
       Py.join "," (group :: name :: flat_map (fun i => [info_env_name i;
                      info_deploy_created_at i; info_tag_created_at i]) data)) /\
  format_csv_row "grp" "app" [mkEnvInfo "production" "" "";
                              mkEnvInfo "production-eu" "2024-01-01T10:00:00Z" ""]
    = "grp,app,production,,,production-eu,2024-01-01T10:00:00Z,".
Proof.
  split; [|split; [|split]].
  - intros p env [H | [e H]]; unfold get_deployment_info, get_environment_last_deployment;
      rewrite H; [rewrite bind_unit; reflexivity|].
    cbv [IO.bind IO.print IO.ret]; reflexivity.
  - intros p env d H Ht. unfold get_deployment_info, get_environment_last_deployment.
    rewrite H, bind_unit.
    destruct (get_tag_creation_date api p (dep_ref d)) as [o r].
    simpl in Ht; destruct Ht as [-> | ->]; rewrite bind_ret; reflexivity.
  - intros; apply format_csv_row_fields.
  - reflexivity.
Qed.

(** C10: the row is the plain comma-join of its fields; splitting it on
    commas gives 2 + 3N pieces exactly when no field contains a comma, and
    an environment name with a comma gives more. *)
Theorem C10_csv_no_escaping :
  (forall group name data,
     let fields := group :: name :: flat_map (fun i => [info_env_name i;
                     info_deploy_created_at i; info_tag_created_at i]) data in
     format_csv_row group name data = Py.join "," fields /\
     (List.length (Py.split "," (format_csv_row group name data)) = 2 + 3 * List.length data
      <-> Forall (fun f => Py.contains "," f = false) fields)) /\
  (exists group name data,
     Py.contains "," (info_env_name (hd (mkEnvInfo "" "" "") data)) = true /\
     List.length (Py.split "," (format_csv_row group name data)) > 2 + 3 * List.length data).
Proof.
  split.
  - intros group name data fields. rewrite format_csv_row_fields. split; [reflexivity|].
    unfold fields. rewrite split_join_comma by discriminate.
    rewrite split_fields_length. cbn [List.length]. rewrite flat_map_triples_length.
    set (L := list_sum (map (count_char ",") _)).
    assert (HL : L = 0 <-> Forall (fun f => Py.contains "," f = false)
                   (group :: name :: flat_map (fun i => [info_env_name i;
                      info_deploy_created_at i; info_tag_created_at i]) data)).
    { unfold L; rewrite list_sum_zero, Forall_map.
      split; apply Forall_impl; intros f; apply count_char_contains. }
    rewrite <- HL; lia.
  - exists "grp", "app", [mkEnvInfo "prod,eu" "t1" "t2"]; vm_compute; split; [reflexivity | lia].
Qed.

(** ** Further properties of main.py *)

Module ReFacts.
Import Re.

Lemma match_bol (ps : list item) (s : string) :
  match_at (Bol :: ps) s true = match_at ps s true.
Proof. reflexivity. Qed.

Lemma match_lit (c : ascii) (ps : list item) (s : string) (b : bool) :
  match_at (Lit c :: ps) s b = true <->
  exists s', s = String c s' /\ match_at ps s' false = true.
Proof.
  simpl. destruct s as [|c' s'].
  - split; [discriminate | intros [s'' [H _]]; discriminate].
  - rewrite andb_true_iff. destruct (Ascii.eqb_spec c c') as [->|Hne].
    + split; [intros [_ H]; exists s'; auto | intros [s'' [H Hm]]; injection H; intros; subst; auto].
    + split; [intros [H _]; discriminate | intros [s'' [H _]]; injection H; congruence].
Qed.

Lemma match_eol (s : string) (b : bool) :
  match_at [Eol] s b = true <-> s = "" \/ s = Py.newline.
Proof.
  simpl. rewrite andb_true_r. unfold at_eol. destruct s as [|c s'].
  - split; auto.
  - rewrite String.eqb_eq. split; [auto | intros [H|H]; [discriminate | exact H]].
Qed.

Lemma digit_run_app (a r : string) :
  forallb is_digit (list_ascii_of_string a) = true ->
  digit_run (a ++ r) = String.length a + digit_run r.
Proof.
  induction a as [|c a IH]; simpl; [reflexivity|].
  rewrite andb_true_iff; intros [Hc Ha]. rewrite Hc, IH; auto.
Qed.

Lemma drop_app (a r : string) : drop (String.length a) (a ++ r) = r.
Proof. induction a; simpl; auto. Qed.

Lemma digit_prefix (k : nat) (s : string) :
  k <= digit_run s ->
  exists a, s = a ++ drop k s /\ String.length a = k /\
            forallb is_digit (list_ascii_of_string a) = true.
Proof.
  revert s; induction k as [|k IH]; intros s Hk.
  - exists ""; auto.
  - destruct s as [|c s]; simpl in Hk; [lia|].
    destruct (is_digit c) eqn:Hc; [|lia].
    destruct (IH s ltac:(lia)) as [a [Hs [Hl Ha]]].
    exists (String c a); simpl; rewrite Hc, Ha, Hl, <- Hs; auto.
Qed.

Lemma match_plus (ps : list item) (s : string) (b : bool) :
  match_at (PlusDigit :: ps) s b = true <->
  exists a r, s = a ++ r /\ digit_string a = true /\ match_at ps r false = true.
Proof.
  cbn [match_at]. rewrite existsb_exists. split.
  - intros [k [Hin Hm]]. rewrite <- in_rev, in_seq in Hin.
    destruct (digit_prefix k s ltac:(lia)) as [a [Hs [Hl Ha]]].
    exists a, (drop k s); split; [exact Hs|split; [|exact Hm]].
    unfold digit_string; rewrite Ha, andb_true_r.
    destruct a; simpl in Hl; [lia | reflexivity].
  - intros [a [r [-> [Hd Hm]]]]. unfold digit_string in Hd.
    rewrite andb_true_iff in Hd; destruct Hd as [Hne Ha].
    exists (String.length a); split.
    + rewrite <- in_rev, in_seq. rewrite digit_run_app by exact Ha.
      destruct a; [discriminate | simpl; lia].
    + rewrite drop_app; exact Hm.
Qed.

End ReFacts.

(** [is_valid_tag_format] accepts exactly "v", digits, ".", digits, ".",
    digits, optionally followed by one final newline. *)
Theorem is_valid_tag_format_iff (s : string) :
  is_valid_tag_format s = true <->
  exists a b c tl,
    digit_string a = true /\ digit_string b = true /\ digit_string c = true /\
    (tl = "" \/ tl = Py.newline) /\
    s = "v" ++ a ++ "." ++ b ++ "." ++ c ++ tl.
Proof.
  unfold is_valid_tag_format, Re.re_match, Re.tag_pattern.
  rewrite ReFacts.match_bol, ReFacts.match_lit. split.
  - intros [s1 [-> H1]].
    apply ReFacts.match_plus in H1 as [a [r1 [-> [Ha H2]]]].
    apply ReFacts.match_lit in H2 as [s2 [-> H3]].
    apply ReFacts.match_plus in H3 as [b [r2 [-> [Hb H4]]]].
    apply ReFacts.match_lit in H4 as [s3 [-> H5]].
    apply ReFacts.match_plus in H5 as [c [r3 [-> [Hc H6]]]].
    apply ReFacts.match_eol in H6.
    exists a, b, c, r3; repeat split; auto.
  - intros [a [b [c [tl [Ha [Hb [Hc [Htl ->]]]]]]]].
    exists (a ++ "." ++ b ++ "." ++ c ++ tl); split; [reflexivity|].
    apply ReFacts.match_plus; exists a, ("." ++ b ++ "." ++ c ++ tl); repeat split; auto.
    apply ReFacts.match_lit; exists (b ++ "." ++ c ++ tl); split; [reflexivity|].
    apply ReFacts.match_plus; exists b, ("." ++ c ++ tl); repeat split; auto.
    apply ReFacts.match_lit; exists (c ++ tl); split; [reflexivity|].
    apply ReFacts.match_plus; exists c, tl; repeat split; auto.
    apply ReFacts.match_eol; exact Htl.
Qed.

(** The three fatal paths: a refused connection prints only its error; a
    failed project lookup (single project) or project listing (all
    projects) prints the header and its error; each exits with 1. *)
Theorem fatal_failures_output (api : Api) :
  (forall args e, api_auth api (arg_url args) (arg_token args) = Exc e ->
     run args api = (["Error connecting to GitLab: " ++ e], 1%Z)) /\
  (forall args id e, api_auth api (arg_url args) (arg_token args) = Ok tt ->
     arg_project args = Some id -> id <> "" -> api_projects_get api id = Exc e ->
     run args api = ([csv_header; "Error retrieving project: " ++ e], 1%Z)) /\
  (forall args e, api_auth api (arg_url args) (arg_token args) = Ok tt ->
     (arg_project args = None \/ arg_project args = Some "") ->
     api_projects_list api = Exc e ->
     run args api = ([csv_header; "Error retrieving projects: " ++ e], 1%Z)).
Proof.
  split; [|split].
  - intros args e; apply run_auth_fails.
  - intros args id e; apply run_get_project_fails.
  - intros args e; apply run_list_projects_fails.
Qed.

(** The exit status of a run, from the point where [parse_arguments]
    has returned, is 0 or 1, and it is 1 exactly when the connection fails
    or, once connected, the project lookup (single project) or the project
    listing (all projects) fails. *)
Theorem run_exit_status (api : Api) (args : Args) :
  (snd (run args api) = 0%Z \/ snd (run args api) = 1%Z) /\
  (snd (run args api) = 1%Z <->
   (exists e, api_auth api (arg_url args) (arg_token args) = Exc e) \/
   (api_auth api (arg_url args) (arg_token args) = Ok tt /\
    ((exists id e, arg_project args = Some id /\ id <> "" /\ api_projects_get api id = Exc e) \/
     ((arg_project args = None \/ arg_project args = Some "") /\
      exists e, api_projects_list api = Exc e)))).
Proof. apply run_exit_cases. Qed.

(** [if args.project:] treats an empty --project like an absent one: all
    projects are scanned. *)
Theorem run_empty_project_scans_all (api : Api) (url token : string) (tag : option string) :
  run (mkArgs url token (Some "") tag) api = run (mkArgs url token None tag) api.
Proof. reflexivity. Qed.

Lemma get_deployment_info_silent (api : Api) (p : Project) (env : Environment) :
  (forall i, exists d, api_environment_last api p i = Ok d) ->
  (forall n, exists ts, api_tags_list api p n = Ok ts) ->
  exists info, get_deployment_info api p env = ([], IO.Ret info) /\
               info_env_name info = env_name env.
Proof.
  intros Hd Ht. unfold get_deployment_info, get_environment_last_deployment.
  destruct (Hd (env_id env)) as [[d|] Ed]; rewrite Ed, bind_unit;
    [|eexists; split; reflexivity].
  unfold get_tag_creation_date. destruct (Ht (dep_ref d)) as [ts Et].
  rewrite Et, bind_unit.
  destruct (scan_tags (dep_ref d) ts) as [s|]; [destruct (String.eqb s "")|];
    eexists; split; reflexivity.
Qed.

Lemma mapM_deployment_info_silent (api : Api) (p : Project) (envs : list Environment) :
  (forall i, exists d, api_environment_last api p i = Ok d) ->
  (forall n, exists ts, api_tags_list api p n = Ok ts) ->
  exists data, IO.mapM (get_deployment_info api p) envs = ([], IO.Ret data) /\
               map info_env_name data = map env_name envs.
Proof.
  intros Hd Ht. induction envs as [|env envs IH]; [exists []; split; reflexivity|].
  destruct IH as [data [E Hn]].
  destruct (get_deployment_info_silent api p env Hd Ht) as [i [Ei Hi]].
  cbn [IO.mapM]. rewrite Ei, bind_ret, E, bind_ret.
  exists (i :: data); simpl; split; [reflexivity|]. rewrite Hi, Hn; reflexivity.
Qed.

(** A single-project run without retrieval errors whose project has
    production environments prints exactly the header and one row, whose
    environment names are the production environments in the server's
    order, and exits with 0. *)
Theorem single_project_clean_run (api : Api) (args : Args) (id : string) (p : Project)
  (envs : list Environment)
  (Ha : api_auth api (arg_url args) (arg_token args) = Ok tt)
  (Hp : arg_project args = Some id) (Hne : id <> "")
  (Hg : api_projects_get api id = Ok p)
  (Hl : api_environments_list api p = Ok envs)
  (Hsel : filter (fun e => is_production_name (env_name e)) envs <> [])
  (Hd : forall i, exists d, api_environment_last api p i = Ok d)
  (Ht : forall n, exists ts, api_tags_list api p n = Ok ts) :
  exists data,
    run args api =
      ([csv_header;
        format_csv_row (match namespace_name p with Some g => g | None => "" end)
                       (project_name p) data], 0%Z) /\
    map info_env_name data = map env_name (filter (fun e => is_production_name (env_name e)) envs).
Proof.
  rewrite (run_single_project api args id p Ha Hp Hne Hg).
  unfold process_project, get_production_environments. rewrite Hl.
  rewrite select_production_filter.
  destruct (filter _ envs) as [|x xs] eqn:Ef; [contradiction|].
  rewrite (@bind_unit (list Environment) unit).
  destruct (mapM_deployment_info_silent api p (x :: xs) Hd Ht) as [data [Em Hn]].
  rewrite Em, bind_ret. exists data. split; [|exact Hn].
  destruct data as [|d ds]; [discriminate|]. reflexivity.
Qed.

Lemma single_project_clean_run_witness :
  exists data,
    run (Sample.args_single None) Sample.api_ok =
      ([csv_header;
        format_csv_row (match namespace_name Sample.proj with Some g => g | None => "" end)
                       (project_name Sample.proj) data], 0%Z) /\
    map info_env_name data =
      map env_name (filter (fun e => is_production_name (env_name e)) Sample.envs).
Proof.
  apply (single_project_clean_run Sample.api_ok (Sample.args_single None) "grp/app"
           Sample.proj Sample.envs); try reflexivity.
  - discriminate.
  - vm_compute; discriminate.
  - intros i; simpl; destruct (Z.eqb i 1); eexists; reflexivity.
  - intros n; eexists; reflexivity.
Defined.

(** Among the candidates the server returns, the first one whose name is
    exactly the requested name decides the result (its commit's
    [created_at], or [None]); later candidates are not looked at. *)
Theorem tag_lookup_first_exact (api : Api) (p : Project) (name : string)
  (pre post : list Tag) (tag : Tag)
  (Hl : api_tags_list api p name = Ok (pre ++ tag :: post)%list)
  (Hpre : forall t, In t pre -> tag_name t <> name)
  (Hn : tag_name tag = name) :
  get_tag_creation_date api p name = ([], IO.Ret (commit_created_at tag)).
Proof.
  unfold get_tag_creation_date; rewrite Hl. unfold IO.ret. do 2 f_equal. clear Hl.
  induction pre as [|t pre IH]; simpl.
  - rewrite Hn, String.eqb_refl; reflexivity.
  - destruct (String.eqb_spec (tag_name t) name) as [E|_].
    + exfalso; exact (Hpre t (or_introl eq_refl) E).
    + apply IH; intros t' Hin; apply Hpre; right; exact Hin.
Qed.

Lemma tag_lookup_first_exact_witness :
  get_tag_creation_date Sample.api_ok Sample.proj "v1.0.0" =
    ([], IO.Ret (PStr "2023-12-01T09:00:00Z")).
Proof.
  apply (tag_lookup_first_exact Sample.api_ok Sample.proj "v1.0.0"
           [mkTag "v1.0.0-rc1" None]
           [mkTag "v1.0.0" (Some [("created_at", PStr "2099-01-01T00:00:00Z")])]
           (mkTag "v1.0.0" (Some [("created_at", PStr "2023-12-01T09:00:00Z")])));
    [reflexivity | | reflexivity].
  intros t [<- | []]; simpl; discriminate.
Defined.

(** When the environment has a last deployment and the lookup of its ref
    yields a non-empty timestamp, the environment's entry holds its name,
    the deployment's [created_at] and that timestamp; the only lines printed
    are those of the tag lookup. *)
Theorem deployment_info_tag_found (api : Api) (p : Project) (env : Environment)
  (d : Deployment) (t : string)
  (Hd : api_environment_last api p (env_id env) = Ok (Some d))
  (Ht : snd (get_tag_creation_date api p (dep_ref d)) = IO.Ret (PStr t))
  (Hne : t <> "") :
  get_deployment_info api p env =
    (fst (get_tag_creation_date api p (dep_ref d)),
     IO.Ret (mkEnvInfo (env_name env) (dep_created_at d) t)).
Proof.
  unfold get_deployment_info, get_environment_last_deployment. rewrite Hd, bind_unit.
  destruct (get_tag_creation_date api p (dep_ref d)) as [o r]; simpl in Ht; subst r.
  rewrite bind_ret. destruct (String.eqb_spec t "") as [E|_]; [contradiction|].
  simpl; rewrite app_nil_r; reflexivity.
Qed.

Lemma deployment_info_tag_found_witness :
  get_deployment_info Sample.api Sample.proj (mkEnvironment 1 "Production") =
    ([], IO.Ret (mkEnvInfo "Production" "2024-01-01T10:00:00Z" "2023-12-01T09:00:00Z")).
Proof.
  apply (deployment_info_tag_found Sample.api Sample.proj (mkEnvironment 1 "Production")
           Sample.dep "2023-12-01T09:00:00Z"); [reflexivity | vm_compute; reflexivity | discriminate].
Defined.

Lemma split_no_sep (sep : ascii) (s : string) :
  count_char sep s = 0 -> Py.split sep s = [s].
Proof.
  induction s as [|c s IH]; simpl; [reflexivity|].
  destruct (Ascii.eqb c sep); simpl; [discriminate|].
  intros H; rewrite IH by exact H; reflexivity.
Qed.

(** When no field contains a comma, splitting a row on commas gives back
    exactly its fields. *)
Theorem csv_row_split_roundtrip (group name : string) (data : list EnvInfo)
  (Hnc : Forall (fun f => Py.contains "," f = false)
           (group :: name :: flat_map (fun i => [info_env_name i;
              info_deploy_created_at i; info_tag_created_at i]) data)) :
  Py.split "," (format_csv_row group name data) =
    group :: name :: flat_map (fun i => [info_env_name i;
      info_deploy_created_at i; info_tag_created_at i]) data.
Proof.
  rewrite format_csv_row_fields, split_join_comma by discriminate.
  induction Hnc as [|f l Hf Hl IH]; [reflexivity|].
  simpl. rewrite split_no_sep by (apply count_char_contains; exact Hf).
  simpl; rewrite IH; reflexivity.
Qed.

Lemma csv_row_split_roundtrip_witness :
  Py.split "," (format_csv_row "grp" "app" [mkEnvInfo "production" "t1" ""]) =
    ["grp"; "app"; "production"; "t1"; ""].
Proof.
  apply (csv_row_split_roundtrip "grp" "app" [mkEnvInfo "production" "t1" ""]).
  repeat constructor.
Defined.
